(** * Weather station service: consistency fallback over a replicated store

    A shallow embedding of [src/server.py] (class [StationService]) and of the
    part of the Cassandra driver and of CQL that its handlers rely on.

    - First comes what the handlers see of the driver: consistency levels,
      statements, rows, exceptions, and the [Session] interface whose only
      operation is [execute].
    - The handlers [StationName], [RecordTemps] and [StationMax] are written in
      state-passing style over any [Session].
    - [Traced] wraps a session and records every statement it is asked to
      execute, [Script] is a session that replays canned outcomes, and
      [Cluster] gives the statements their CQL meaning on one logical copy of
      the table [weather.stations] held by three replicas. *)

From Stdlib Require Import ZArith List Lia.
From stdpp Require Import base strings list gmap.
Import ListNotations.

Local Open Scope string_scope.
Local Open Scope list_scope.

(** ** The driver as the service sees it *)

(** [cassandra.ConsistencyLevel], the levels that make sense in the single
    data centre [SimpleStrategy] keyspace the service creates. *)
Inductive ConsistencyLevel : Type :=
  | ANY | ONE | TWO | THREE | QUORUM | ALL | LOCAL_ONE.

(** The CQL texts the service sends. The two aggregate statements of
    [__init__] are prepared from the same text and differ only in their
    consistency level. *)
Inductive Query : Type :=
  | InsertStation   (* INSERT INTO weather.stations (id, name) VALUES (%s, %s) *)
  | InsertTemp      (* INSERT INTO weather.stations (id, date, record)
                       VALUES (?, ?, {tmin: ?, tmax: ?}) *)
  | SelectMax       (* SELECT MAX(record.tmax) as max_temp
                       FROM weather.stations WHERE id = ? *)
  | SelectName.     (* SELECT name FROM weather.stations WHERE id = %s *)

(** A statement with its [consistency_level] attribute; [None] is the
    driver's "use the session default". *)
Record Statement : Type := mkStatement {
  query : Query;
  consistency_level : option ConsistencyLevel
}.

(** Modelled from the spec: the request and reply messages ([station_pb2]) are
    not in the source. Section 6 of the spec gives their fields: a station is
    a string, a date is a calendar day (kept here as its day number),
    temperatures are integers, every reply has a string [error]. *)
Definition Date : Type := Z.

Inductive Value : Type :=
  | VText (s : string)
  | VDate (d : Date)
  | VInt (z : Z).

(** A result row. Each query of the service selects one column; a row carries
    the columns the handlers read, [None] being CQL's null. *)
Record Row : Type := mkRow {
  max_temp : option Z;
  name : option string
}.

(** The exceptions the handlers tell apart: the two classes caught by
    [except (cassandra.Unavailable, cassandra.cluster.NoHostAvailable)] and
    every other [Exception]. Each carries the text [str(e)] returns. *)
Inductive Exn : Type :=
  | Unavailable (msg : string)
  | NoHostAvailable (msg : string)
  | OtherException (msg : string).

Definition str (e : Exn) : string :=
  match e with
  | Unavailable msg | NoHostAvailable msg | OtherException msg => msg
  end.

(** Does [except (cassandra.Unavailable, cassandra.cluster.NoHostAvailable)]
    catch [e]? *)
Definition is_unavailable (e : Exn) : bool :=
  match e with
  | Unavailable _ | NoHostAvailable _ => true
  | OtherException _ => false
  end.

(** What a call of [session.execute] does: return a result set or raise. *)
Inductive Outcome : Type :=
  | Rows (result : list Row)
  | Raise (e : Exn).

(** [ResultSet.one()]: the first row, or [None]. *)
Definition one (result : list Row) : option Row := head result.

(** The storage engine interface: a session of state [S] executes a statement
    with its parameters, answers, and moves to a new state. *)
Class Session (S : Type) : Type :=
  execute : S -> Statement -> list Value -> Outcome * S.

(** ** Messages *)

Module StationNameRequest.
Record t : Type := mk { station : string }.
End StationNameRequest.

Module StationNameReply.
Record t : Type := mk { name : string; error : string }.
End StationNameReply.

Module RecordTempsRequest.
Record t : Type := mk { station : string; date : Date; tmin : Z; tmax : Z }.
End RecordTempsRequest.

Module RecordTempsReply.
Record t : Type := mk { error : string }.
End RecordTempsReply.

Module StationMaxRequest.
Record t : Type := mk { station : string }.
End StationMaxRequest.

Module StationMaxReply.
Record t : Type := mk { tmax : Z; error : string }.
End StationMaxReply.

(** A protobuf string field given [None] in the message constructor stays
    unset and reads back as the empty string. *)
Definition pb_string (o : option string) : string := default "" o.

(** ** The service *)

(** The keyspace is created with ['replication_factor': 3]. *)
Definition replication_factor : nat := 3.

(** How many of the [rf] replicas of a row must be up for the coordinator to
    accept a request at a level. [ANY] is satisfied by a hint on the
    coordinator alone. *)
Definition required_replicas (cl : ConsistencyLevel) (rf : nat) : nat :=
  match cl with
  | ANY => 0
  | ONE | LOCAL_ONE => 1
  | TWO => 2
  | THREE => 3
  | QUORUM => rf / 2 + 1
  | ALL => rf
  end.


(** The statement handles [__init__] prepares and keeps in [self]. *)
Record StationService : Type := mkService {
  insert_temp : Statement;
  select_max_strong : Statement;
  select_max_available : Statement
}.

(** The handles as [__init__] leaves them. (The schema statements and the
    seeding of station names that precede them are run once, before any
    request; [Cluster.seed] below is the seeding statement.) *)
Definition service : StationService :=
  {| insert_temp := mkStatement InsertTemp (Some ONE);
     select_max_strong := mkStatement SelectMax (Some THREE);
     select_max_available := mkStatement SelectMax (Some ONE) |}.

(** The simple string statement of [StationName]; it has no consistency level
    of its own. *)
Definition select_name : Statement := mkStatement SelectName None.

(** The parameter tuples the handlers bind. *)
Definition max_params (request : StationMaxRequest.t) : list Value :=
  [VText (StationMaxRequest.station request)].

Definition temps_params (request : RecordTempsRequest.t) : list Value :=
  [VText (RecordTempsRequest.station request);
   VDate (RecordTempsRequest.date request);
   VInt (RecordTempsRequest.tmin request);
   VInt (RecordTempsRequest.tmax request)].

Definition name_params (request : StationNameRequest.t) : list Value :=
  [VText (StationNameRequest.station request)].

(** [StationName] has no [try]: an exception of [execute] leaves the
    handler. *)
Definition StationName {S} `{Session S}
    (request : StationNameRequest.t) (session : S)
    : (Exn + StationNameReply.t) * S :=
  match execute session select_name (name_params request) with
  | (Raise e, session) => (inl e, session)
  | (Rows result, session) =>
      match one result with
      | Some row =>
          (inr (StationNameReply.mk (pb_string (name row)) ""), session)
      | None =>
          (inr (StationNameReply.mk "" "Station not found"), session)
      end
  end.

Definition RecordTemps {S} `{Session S} (self : StationService)
    (request : RecordTempsRequest.t) (session : S)
    : RecordTempsReply.t * S :=
  match execute session (insert_temp self) (temps_params request) with
  | (Rows _, session) => (RecordTempsReply.mk "", session)
  | (Raise e, session) =>
      if is_unavailable e
      then (RecordTempsReply.mk "unavailable", session)
      else (RecordTempsReply.mk (str e), session)
  end.

Definition StationMax {S} `{Session S} (self : StationService)
    (request : StationMaxRequest.t) (session : S)
    : StationMaxReply.t * S :=
  match execute session (select_max_strong self) (max_params request) with
  | (Rows result, session) =>
      match one result with
      | Some {| max_temp := Some v |} =>
          (StationMaxReply.mk v "", session)
      | _ =>
          (StationMaxReply.mk (-1) "No data found", session)
      end
  | (Raise e, session) =>
      if is_unavailable e then
        match execute session (select_max_available self)
                (max_params request) with
        | (Rows result, session) =>
            match one result with
            | Some {| max_temp := Some v |} =>
                (StationMaxReply.mk v "fallback_to_available", session)
            | _ =>
                (StationMaxReply.mk (-1) "No data found", session)
            end
        | (Raise e, session) =>
            if is_unavailable e
            then (StationMaxReply.mk (-1) "unavailable", session)
            else (StationMaxReply.mk (-1) (str e), session)
        end
      else (StationMaxReply.mk (-1) (str e), session)
  end.

(** The two ways a request for a station's maximum ends with a value [v]:
    the strong read returns it, or the strong read raises an unavailability
    error and the fallback read returns it. *)
Definition clean_success {S} `{Session S}
    (request : StationMaxRequest.t) (session : S) (v : Z) : Prop :=
  exists result s1 row,
    execute session (select_max_strong service) (max_params request)
      = (Rows result, s1)
    /\ one result = Some row /\ max_temp row = Some v.

Definition degraded_success {S} `{Session S}
    (request : StationMaxRequest.t) (session : S) (v : Z) : Prop :=
  exists e s1 result s2 row,
    execute session (select_max_strong service) (max_params request)
      = (Raise e, s1)
    /\ is_unavailable e = true
    /\ execute s1 (select_max_available service) (max_params request)
       = (Rows result, s2)
    /\ one result = Some row /\ max_temp row = Some v.

(** ** A session that records what it is asked *)

Definition Call : Type := Statement * list Value.

Record Traced (S : Type) : Type := mkTraced {
  inner : S;
  calls : list Call
}.
Arguments mkTraced {S} _ _.
Arguments inner {S} _.
Arguments calls {S} _.

#[global] Instance Traced_session {S} `{Session S} : Session (Traced S) :=
  fun t stmt params =>
    let (o, s) := execute (inner t) stmt params in
    (o, mkTraced s (calls t ++ [(stmt, params)])).

(** ** A session that replays canned outcomes *)

Module Script.
Definition t : Type := list Outcome.

Definition run (script : t) (stmt : Statement) (params : list Value)
    : Outcome * t :=
  match script with
  | [] => (Raise (OtherException "script exhausted"), [])
  | o :: rest => (o, rest)
  end.

#[global] Instance session : Session t := run.
End Script.

(** ** The statements' meaning on a three-replica cluster

    One logical copy of [weather.stations], as replicas that have converged
    hold it, and the number of replicas that are up. The table is declared
    with [PRIMARY KEY (id, date)], a static [name] and
    [CLUSTERING ORDER BY (date ASC)]: a partition per [id], holding the
    station's name and its observations in ascending date order.

    Two limits of the model. It takes any string as a partition key, where
    the store refuses the empty one: what is proved of stored data is stated
    for non-empty station ids. And a statement it fails is one the
    coordinator refuses before applying it (no host, not enough replicas, bad
    bind values): a write that times out after some replica applied it is
    not in the model. *)

Module Cluster.

Record station_record : Type := mkRecord { tmin : Z; tmax : Z }.

Record Partition : Type := mkPartition {
  p_name : option string;
  p_rows : list (Date * station_record)
}.

Record t : Type := mk {
  live : nat;
  stations : gmap string Partition
}.

Definition empty_partition : Partition := mkPartition None [].

(** The partition of a station, empty when nothing was ever written to it. *)
Definition partition (m : gmap string Partition) (id : string) : Partition :=
  default empty_partition (m !! id).

(** CQL's INSERT on a clustering key: replace the row of that date, or put a
    new row at its place in date order. *)
Fixpoint upsert (d : Date) (r : station_record)
    (rows : list (Date * station_record)) : list (Date * station_record) :=
  match rows with
  | [] => [(d, r)]
  | (d', r') :: rest =>
      if (d <? d')%Z then (d, r) :: rows
      else if (d =? d')%Z then (d, r) :: rest
      else (d', r') :: upsert d r rest
  end.

(** The row stored for a date. *)
Fixpoint find (d : Date) (rows : list (Date * station_record))
    : option station_record :=
  match rows with
  | [] => None
  | (d', r') :: rest => if (d =? d')%Z then Some r' else find d rest
  end.

(** How many rows a partition holds for a date. *)
Fixpoint count (d : Date) (rows : list (Date * station_record)) : nat :=
  match rows with
  | [] => 0
  | (d', _) :: rest => (if (d =? d')%Z then 1 else 0) + count d rest
  end.

(** [MAX(record.tmax)]: null over no rows. *)
Fixpoint max_tmax (rows : list (Date * station_record)) : option Z :=
  match rows with
  | [] => None
  | (_, r) :: rest =>
      match max_tmax rest with
      | None => Some (tmax r)
      | Some m => Some (Z.max (tmax r) m)
      end
  end.

(** [SELECT name ... WHERE id = ?]: nothing for an unknown partition, the
    static row alone when there are no observations, otherwise one row per
    observation, each with the partition's name. *)
Definition name_rows (p : option Partition) : list Row :=
  match p with
  | None => []
  | Some p =>
      match p_rows p with
      | [] =>
          match p_name p with
          | Some n => [mkRow None (Some n)]
          | None => []
          end
      | rows => map (fun _ => mkRow None (p_name p)) rows
      end
  end.

Definition is_read (q : Query) : bool :=
  match q with
  | SelectMax | SelectName => true
  | InsertStation | InsertTemp => false
  end.

(** What a statement returns and leaves behind once enough replicas take it;
    [None] when the parameters do not fit the statement's markers. *)
Definition apply (q : Query) (params : list Value) (m : gmap string Partition)
    : option (list Row * gmap string Partition) :=
  match q, params with
  | InsertStation, [VText id; VText n] =>
      Some ([], <[id := mkPartition (Some n) (p_rows (partition m id))]> m)
  | InsertTemp, [VText id; VDate d; VInt lo; VInt hi] =>
      Some ([], <[id := mkPartition (p_name (partition m id))
                          (upsert d (mkRecord lo hi) (p_rows (partition m id)))]> m)
  | SelectMax, [VText id] =>
      Some ([mkRow (max_tmax (p_rows (partition m id))) None], m)
  | SelectName, [VText id] =>
      Some (name_rows (m !! id), m)
  | _, _ => None
  end.

(** The session default of the driver. *)
Definition default_consistency_level : ConsistencyLevel := LOCAL_ONE.

Definition level (stmt : Statement) : ConsistencyLevel :=
  default default_consistency_level (consistency_level stmt).

Definition is_ANY (cl : ConsistencyLevel) : bool :=
  match cl with ANY => true | _ => false end.

Definition run (c : t) (stmt : Statement) (params : list Value)
    : Outcome * t :=
  match apply (query stmt) params (stations c) with
  | None => (Raise (OtherException "wrong number or type of bind values"), c)
  | Some (result, m) =>
      if (live c =? 0)%nat then
        (Raise (NoHostAvailable "Unable to complete the operation against any hosts"), c)
      else if is_read (query stmt) && is_ANY (level stmt) then
        (Raise (OtherException "ANY ConsistencyLevel is only supported for writes"), c)
      else if (live c <? required_replicas (level stmt) replication_factor)%nat then
        (Raise (Unavailable "Cannot achieve consistency level"), c)
      else (Rows result, mk (live c) m)
  end.

#[global] Instance session : Session t := run.

(** The seeding statement of [__init__], one station. *)
Definition seed (id n : string) (c : t) : t :=
  (run c (mkStatement InsertStation None) [VText id; VText n]).2.

(** The observation stored under the key [(id, d)]. *)
Definition observation (c : t) (id : string) (d : Date)
    : option station_record :=
  find d (p_rows (partition (stations c) id)).

(** How many rows the table holds under the key [(id, d)]. *)
Definition rows_at (c : t) (id : string) (d : Date) : nat :=
  count d (p_rows (partition (stations c) id)).

(** Rows of a partition are in strictly ascending date order. *)
Fixpoint ascending (rows : list (Date * station_record)) : Prop :=
  match rows with
  | [] => True
  | (d, _) :: rest =>
      match rest with
      | [] => True
      | (d', _) :: _ => (d < d')%Z
      end /\ ascending rest
  end.

Definition wf (c : t) : Prop :=
  forall id p, stations c !! id = Some p -> ascending (p_rows p).

(** The partition a write of the request's observation leaves behind. *)
Definition written (c : t) (request : RecordTempsRequest.t) : Partition :=
  let p := partition (stations c) (RecordTempsRequest.station request) in
  mkPartition (p_name p)
    (upsert (RecordTempsRequest.date request)
       (mkRecord (RecordTempsRequest.tmin request)
                 (RecordTempsRequest.tmax request))
       (p_rows p)).


(** The freshly created keyspace, all three replicas up. *)
Definition fresh : t := mk 3 ∅.

(** The same table with [n] replicas up. *)
Definition with_live (n : nat) (c : t) : t := mk n (stations c).

End Cluster.

(** ** Sample data: the scenario of the specification *)

Module Sample.

Definition madison : string := "USW00014837".

(** 2023-01-01 and 2023-01-02 as day numbers. *)
Definition jan1 : Date := 19358%Z.
Definition jan2 : Date := 19359%Z.

Definition obs1 : RecordTempsRequest.t :=
  RecordTempsRequest.mk madison jan1 (-5) 2.
Definition obs2 : RecordTempsRequest.t :=
  RecordTempsRequest.mk madison jan2 (-1) 9.

(** The keyspace after seeding one station. *)
Definition seeded : Cluster.t :=
  Cluster.seed madison "MADISON DANE CO RGNL AP" Cluster.fresh.

(** The keyspace after the two writes of the scenario. *)
Definition loaded : Cluster.t :=
  (RecordTemps service obs2 (RecordTemps service obs1 Cluster.fresh).2).2.

Definition ask_max : StationMaxRequest.t := StationMaxRequest.mk madison.
Definition ask_name : StationNameRequest.t := StationNameRequest.mk madison.

(** A read that times out: an exception that is not an unavailability
    error. *)
Definition timeout : Exn :=
  OtherException "Operation timed out - received only 2 responses.".

End Sample.


(** ** Loading the station list

    The part of [__init__] that reads [ghcnd-stations.txt], one station per
    fixed-width line, keeps the stations of Wisconsin and inserts their
    names. The lines of that file are ASCII, so a character is a byte. *)

Module Stations.
Import Strings.Ascii.

(** Spark SQL's [SUBSTRING(str, pos, len)] for a position [pos >= 1]: the
    [len] characters from the [pos]-th on, fewer where the string ends. *)
Definition SUBSTRING (value : string) (pos len : nat) : string :=
  String.substring (pos - 1) len value.

Definition space : ascii := " "%char.

Fixpoint ltrim (s : string) : string :=
  match s with
  | EmptyString => EmptyString
  | String c rest => if Strings.Ascii.eqb c space then ltrim rest else s
  end.

Fixpoint rtrim (s : string) : string :=
  match s with
  | EmptyString => EmptyString
  | String c rest =>
      match rtrim rest with
      | EmptyString =>
          if Strings.Ascii.eqb c space then EmptyString else String c EmptyString
      | kept => String c kept
      end
  end.

(** Spark SQL's [TRIM(str)]: without the leading and the trailing spaces. *)
Definition TRIM (s : string) : string := rtrim (ltrim s).

(** A row of the [stations] view. *)
Record row : Type := mkRow { id : string; state : string; name : string }.

(** The SELECT over [stations_raw]: columns 1-11, 39-40 and 42-71 of a
    line. *)
Definition select (value : string) : row :=
  {| id := SUBSTRING value 1 11;
     state := SUBSTRING value 39 2;
     name := TRIM (SUBSTRING value 42 30) |}.

Definition stations (lines : list string) : list row := map select lines.

(** [stations.filter("state = 'WI'")]. *)
Definition wi_stations (lines : list string) : list row :=
  filter (fun r => state r = "WI") (stations lines).

(** The simple string statement of the loop; it has no consistency level of
    its own. *)
Definition insert_station : Statement := mkStatement InsertStation None.

Definition station_params (r : row) : list Value :=
  [VText (id r); VText (name r)].

(** The loop over [wi_stations.collect()]. There is no [try] around it: the
    first exception ends the loop and leaves [__init__]. *)
Fixpoint insert_stations {S} `{Session S} (rows : list row) (session : S)
    : option Exn * S :=
  match rows with
  | [] => (None, session)
  | r :: rest =>
      match execute session insert_station (station_params r) with
      | (Raise e, session) => (Some e, session)
      | (Rows _, session) => insert_stations rest session
      end
  end.


(** Is every character a space? *)
Fixpoint blank (s : string) : bool :=
  match s with
  | EmptyString => true
  | String c rest => Strings.Ascii.eqb c space && blank rest
  end.

Definition starts_with_space (s : string) : bool :=
  match s with
  | EmptyString => false
  | String c _ => Strings.Ascii.eqb c space
  end.

Fixpoint ends_with_space (s : string) : bool :=
  match s with
  | EmptyString => false
  | String c EmptyString => Strings.Ascii.eqb c space
  | String _ rest => ends_with_space rest
  end.


End Stations.

(** ** Sample lines, in the layout of [ghcnd-stations.txt] *)

Module SampleLines.

Definition madison_line : string :=
  "USW00014837  43.1406  -89.3453  264.0 WI MADISON DANE CO RGNL AP        GSN     72641".

Definition chicago_line : string :=
  "USW00094846  41.9950  -87.9336  204.8 IL CHICAGO OHARE INTL AP                  72530".

(** A station outside the United States: columns 39-40 are blank, and the
    line ends with the name. *)
Definition antigua_line : string :=
  "ACW00011604  17.1167  -61.7833   10.1    ST JOHNS COOLIDGE FLD".

Definition lines : list string :=
  [madison_line; ""; chicago_line; antigua_line].

Definition madison_row : Stations.row :=
  Stations.mkRow "USW00014837" "WI" "MADISON DANE CO RGNL AP".

(** What [StationMax] executes when both reads are needed. *)
Definition both_reads : list Call :=
  [(select_max_strong service, [VText "USW00014837"]);
   (select_max_available service, [VText "USW00014837"])].

End SampleLines.

(** ** Statements in sequence

    The handlers run on a pool of threads, but each statement is taken by the
    cluster on its own: whatever the interleaving, the table goes through a
    sequence of statements. *)

Definition run_all (c : Cluster.t) (statements : list Call) : Cluster.t :=
  foldl (fun c call => (Cluster.run c call.1 call.2).2) c statements.

(** * Properties *)

(** ** Tracing *)

Section Tracing.
Context {S : Type} `{Session S}.

Lemma execute_traced (s : S) (log : list Call) stmt params :
  execute (mkTraced s log) stmt params =
  ((execute s stmt params).1,
   mkTraced (execute s stmt params).2 (log ++ [(stmt, params)])).
Proof.
  unfold execute at 1, Traced_session. simpl.
  destruct (execute s stmt params); reflexivity.
Qed.

(** Recording the calls does not change what a handler replies. *)
Lemma StationMax_traced self request (s : S) log :
  (StationMax self request (mkTraced s log)).1 = (StationMax self request s).1
  /\ inner (StationMax self request (mkTraced s log)).2
     = (StationMax self request s).2.
Proof.
  unfold StationMax. rewrite execute_traced.
  destruct (execute s _ _) as [[result|e] s1]; simpl.
  - destruct (one result) as [[[v|] ?]|]; auto.
  - destruct (is_unavailable e); simpl; auto.
    rewrite execute_traced.
    destruct (execute s1 _ _) as [[result|e2] s2]; simpl.
    + destruct (one result) as [[[v|] ?]|]; auto.
    + destruct (is_unavailable e2); auto.
Qed.

Lemma RecordTemps_traced self request (s : S) log :
  (RecordTemps self request (mkTraced s log)).1
    = (RecordTemps self request s).1
  /\ inner (RecordTemps self request (mkTraced s log)).2
     = (RecordTemps self request s).2.
Proof.
  unfold RecordTemps. rewrite execute_traced.
  destruct (execute s _ _) as [[result|e] s1]; simpl; auto.
  destruct (is_unavailable e); auto.
Qed.

End Tracing.

(** ** The read path *)

Section ReadPath.
Context {S : Type} `{Session S}.
Implicit Types (request : StationMaxRequest.t) (s : S) (log : list Call).

(** The statements [StationMax] has executed once it returns: the strong
    read, and the fallback read exactly when the strong read raised an
    unavailability error. *)
Lemma StationMax_calls request s log :
  calls (StationMax service request (mkTraced s log)).2 =
  log ++ (select_max_strong service, max_params request) ::
    match (execute s (select_max_strong service) (max_params request)).1 with
    | Raise e =>
        if is_unavailable e
        then [(select_max_available service, max_params request)]
        else []
    | Rows _ => []
    end.
Proof.
  unfold StationMax. rewrite execute_traced.
  destruct (execute s _ _) as [[result|e] s1]; simpl.
  - destruct (one result) as [[[v|] ?]|]; reflexivity.
  - destruct (is_unavailable e); simpl; [|reflexivity].
    rewrite execute_traced.
    destruct (execute s1 _ _) as [[result|e2] s2]; simpl.
    + rewrite <- app_assoc.
      destruct (one result) as [[[v|] ?]|]; reflexivity.
    + rewrite <- app_assoc. destruct (is_unavailable e2); reflexivity.
Qed.

(** C1. When the strong read raises an unavailability error: a fallback read
    that returns a row with a non-null aggregate [v] gives the reply
    [tmax = v], [error = "fallback_to_available"]; a fallback read that
    raises an unavailability error too gives [tmax = -1],
    [error = "unavailable"]. *)
Theorem StationMax_fallback request s s1 s2 (e : Exn) (o : Outcome) :
  execute s (select_max_strong service) (max_params request) = (Raise e, s1) ->
  is_unavailable e = true ->
  execute s1 (select_max_available service) (max_params request) = (o, s2) ->
  (forall row rest v, o = Rows (row :: rest) -> max_temp row = Some v ->
     StationMax service request s
       = (StationMaxReply.mk v "fallback_to_available", s2))
  /\ (forall e2, o = Raise e2 -> is_unavailable e2 = true ->
     StationMax service request s
       = (StationMaxReply.mk (-1) "unavailable", s2)).
Proof.
  intros Hstrong He Hweak. unfold StationMax.
  rewrite Hstrong, He, Hweak. split.
  - intros [mt nm] rest v -> Hv. simpl in Hv. subst mt. reflexivity.
  - intros e2 -> ->. reflexivity.
Qed.

(** C2. When the strong read raises anything but an unavailability error,
    the reply is [tmax = -1] with that exception's text as [error], and
    the strong read is the only statement executed. *)
Theorem StationMax_other_error_verbatim request s s1 (e : Exn) log :
  execute s (select_max_strong service) (max_params request) = (Raise e, s1) ->
  is_unavailable e = false ->
  StationMax service request s = (StationMaxReply.mk (-1) (str e), s1)
  /\ calls (StationMax service request (mkTraced s log)).2
     = log ++ [(select_max_strong service, max_params request)].
Proof.
  intros Hstrong He. split.
  - unfold StationMax. rewrite Hstrong, He. reflexivity.
  - rewrite StationMax_calls, Hstrong. simpl. rewrite He. reflexivity.
Qed.

(** C4. When the strong read returns no row, or a row whose aggregate is
    null, the reply is [tmax = -1], [error = "No data found"]; the strong
    read is the only statement executed; and that error text is neither the
    empty one of a clean success nor ["unavailable"]. *)
Theorem StationMax_no_data request s s1 (result : list Row) log :
  execute s (select_max_strong service) (max_params request)
    = (Rows result, s1) ->
  one result = None \/ (exists row, one result = Some row /\ max_temp row = None) ->
  StationMax service request s
    = (StationMaxReply.mk (-1) "No data found", s1)
  /\ calls (StationMax service request (mkTraced s log)).2
     = log ++ [(select_max_strong service, max_params request)]
  /\ StationMaxReply.error (StationMax service request s).1 <> ""
  /\ StationMaxReply.error (StationMax service request s).1 <> "unavailable".
Proof.
  intros Hstrong Hempty.
  assert (StationMax service request s
          = (StationMaxReply.mk (-1) "No data found", s1)) as Hreply.
  { unfold StationMax. rewrite Hstrong.
    destruct Hempty as [->|([mt nm] & -> & Hnull)]; [reflexivity|].
    simpl in Hnull. subst mt. reflexivity. }
  rewrite Hreply. repeat split; try discriminate.
  rewrite StationMax_calls, Hstrong. reflexivity.
Qed.

(** C9. When the strong read raises an unavailability error and the fallback
    read returns no row, or a row whose aggregate is null, the reply is
    [tmax = -1], [error = "No data found"], the reply of an empty strong
    read, and not the degraded marker. *)
Theorem StationMax_fallback_no_data request s s1 s2 (e : Exn)
    (result : list Row) :
  execute s (select_max_strong service) (max_params request) = (Raise e, s1) ->
  is_unavailable e = true ->
  execute s1 (select_max_available service) (max_params request)
    = (Rows result, s2) ->
  one result = None \/ (exists row, one result = Some row /\ max_temp row = None) ->
  StationMax service request s
    = (StationMaxReply.mk (-1) "No data found", s2)
  /\ StationMaxReply.error (StationMax service request s).1
     <> "fallback_to_available".
Proof.
  intros Hstrong He Hweak Hempty.
  assert (StationMax service request s
          = (StationMaxReply.mk (-1) "No data found", s2)) as Hreply.
  { unfold StationMax. rewrite Hstrong, He, Hweak.
    destruct Hempty as [->|([mt nm] & -> & Hnull)]; [reflexivity|].
    simpl in Hnull. subst mt. reflexivity. }
  rewrite Hreply. split; [reflexivity|discriminate].
Qed.

(** C10. In every reply of [StationMax], a [tmax] other than [-1] comes only
    from a strong read that returned it, with an empty [error], or from a
    fallback read that returned it, with [error = "fallback_to_available"];
    with any other [error], among them ["No data found"] and
    ["unavailable"], [tmax] is [-1]. *)
Theorem StationMax_value_only_on_success request s :
  let reply := (StationMax service request s).1 in
  (StationMaxReply.tmax reply <> (-1)%Z ->
     (StationMaxReply.error reply = ""
      /\ clean_success request s (StationMaxReply.tmax reply))
     \/ (StationMaxReply.error reply = "fallback_to_available"
         /\ degraded_success request s (StationMaxReply.tmax reply)))
  /\ (StationMaxReply.error reply <> "" ->
      StationMaxReply.error reply <> "fallback_to_available" ->
      StationMaxReply.tmax reply = (-1)%Z)
  /\ (StationMaxReply.error reply = "No data found"
      \/ StationMaxReply.error reply = "unavailable" ->
      StationMaxReply.tmax reply = (-1)%Z).
Proof.
  unfold StationMax, clean_success, degraded_success.
  destruct (execute s _ _) as [[result|e] s1] eqn:Hstrong.
  - destruct (one result) as [[[v|] nm]|] eqn:Hone; simpl;
      (split; [|split]); try tauto; try (intros [?|?]; discriminate).
    intros _. left. split; [reflexivity|].
    exists result, s1, (mkRow (Some v) nm). auto.
  - destruct (is_unavailable e) eqn:He; simpl; [|tauto].
    destruct (execute s1 _ _) as [[result|e2] s2] eqn:Hweak.
    + destruct (one result) as [[[v|] nm]|] eqn:Hone; simpl;
        (split; [|split]); try tauto; try (intros [?|?]; discriminate).
      intros _. right. split; [reflexivity|].
      exists e, s1, result, s2, (mkRow (Some v) nm). auto.
    + destruct (is_unavailable e2); simpl; tauto.
Qed.

End ReadPath.

(** ** The write path and the name lookup *)

Section WritePath.
Context {S : Type} `{Session S}.
Implicit Types (s : S) (log : list Call).


(** C5. The [error] of a [RecordTemps] reply is empty when the write returns,
    ["unavailable"] when it raises an unavailability error, and the
    exception's own text when it raises anything else. *)
Theorem RecordTemps_error (request : RecordTempsRequest.t) s s1 (o : Outcome) :
  execute s (insert_temp service) (temps_params request) = (o, s1) ->
  (forall result, o = Rows result ->
     RecordTemps service request s = (RecordTempsReply.mk "", s1))
  /\ (forall e, o = Raise e -> is_unavailable e = true ->
     RecordTemps service request s = (RecordTempsReply.mk "unavailable", s1))
  /\ (forall e, o = Raise e -> is_unavailable e = false ->
     RecordTemps service request s = (RecordTempsReply.mk (str e), s1)).
Proof.
  intros Hwrite. unfold RecordTemps. rewrite Hwrite.
  repeat split; intros; subst o; try reflexivity.
  - rewrite H1. reflexivity.
  - rewrite H1. reflexivity.
Qed.

(** C7. When the lookup returns a first row, whatever it holds, the reply
    carries that row's name (the empty string for a null name) and an empty
    [error], so a row with the name [n] gives the name [n]; when it returns
    no row, the reply carries an empty name and
    [error = "Station not found"], which is not empty; either way the lookup
    is the only statement executed. *)
Theorem StationName_found_or_not (request : StationNameRequest.t) s s1
    (result : list Row) log :
  execute s select_name (name_params request) = (Rows result, s1) ->
  (forall row, one result = Some row ->
     StationName request s
       = (inr (StationNameReply.mk (pb_string (name row)) ""), s1)
     /\ forall n, name row = Some n ->
          StationName request s = (inr (StationNameReply.mk n ""), s1))
  /\ (one result = None ->
      StationName request s
        = (inr (StationNameReply.mk "" "Station not found"), s1)
      /\ "Station not found" <> "")
  /\ calls (StationName request (mkTraced s log)).2
     = log ++ [(select_name, name_params request)].
Proof.
  intros Hlookup. unfold StationName. rewrite execute_traced, Hlookup.
  split; [|split].
  - intros row ->. split; [reflexivity|].
    intros n ->. reflexivity.
  - intros ->. split; [reflexivity|discriminate].
  - simpl. destruct (one result); reflexivity.
Qed.

End WritePath.

(** ** The table: upserts keep one row per key *)

Section Upsert.
Import Cluster.
Implicit Types (d : Date) (r : station_record)
  (rows : list (Date * station_record)).



Lemma find_upsert_other d d' r rows :
  d <> d' -> find d' (upsert d r rows) = find d' rows.
Proof.
  intros Hne. induction rows as [|[d0 r0] rest IH]; simpl.
  - destruct (Z.eqb_spec d' d); congruence.
  - destruct (d <? d0)%Z; simpl.
    + destruct (Z.eqb_spec d' d); congruence.
    + destruct (Z.eqb_spec d d0) as [->|]; simpl.
      * destruct (Z.eqb_spec d' d0); congruence.
      * rewrite IH. reflexivity.
Qed.



(** In ascending rows, no row after the first has the first row's date or an
    earlier one. *)
Lemma ascending_count_le d d0 r0 rows :
  ascending ((d0, r0) :: rows) -> (d <= d0)%Z -> count d rows = 0.
Proof.
  revert d0 r0. induction rows as [|[d1 r1] rest IH]; intros d0 r0; simpl;
    [reflexivity|].
  intros [Hlt Hrest] Hle.
  destruct (Z.eqb_spec d d1); [lia|].
  simpl. apply (IH d1 r1); [exact Hrest|lia].
Qed.

Lemma ascending_upsert d r rows :
  ascending rows -> ascending (upsert d r rows).
Proof.
  induction rows as [|[d0 r0] rest IH]; simpl; [tauto|].
  intros [Hhead Hrest].
  destruct (Z.ltb_spec d d0); [simpl; tauto|].
  destruct (Z.eqb_spec d d0) as [->|Hne]; [simpl; tauto|].
  split; [|apply IH, Hrest].
  destruct rest as [|[d1 r1] rest']; simpl; [lia|].
  destruct (d <? d1)%Z; [lia|].
  destruct (d =? d1)%Z; lia.
Qed.


End Upsert.

(** ** The handlers on the cluster *)

Section OnCluster.
Import Cluster.
Implicit Types (c : Cluster.t).

(** A write fails only when no replica is up; otherwise it upserts. *)
Lemma RecordTemps_cluster c (request : RecordTempsRequest.t) :
  RecordTemps service request c =
  if (live c =? 0)%nat
  then (RecordTempsReply.mk "unavailable", c)
  else (RecordTempsReply.mk "",
        Cluster.mk (live c)
          (<[RecordTempsRequest.station request := written c request]>
             (stations c))).
Proof.
  unfold RecordTemps, execute, session, run, written. simpl.
  destruct (live c) as [|n]; reflexivity.
Qed.


Lemma wf_insert c id p :
  wf c -> ascending (p_rows p) ->
  wf (Cluster.mk (live c) (<[id := p]> (stations c))).
Proof.
  intros Hwf Hp id' p'. simpl. rewrite lookup_insert.
  case_decide; [intros [= <-]; exact Hp|apply Hwf].
Qed.

Lemma ascending_partition c id : wf c -> ascending (p_rows (partition (stations c) id)).
Proof.
  intros Hwf. unfold partition.
  destruct (stations c !! id) as [p|] eqn:Hp; simpl; [|exact I].
  exact (Hwf id p Hp).
Qed.

(** Well-formedness is kept by every statement. *)
Lemma wf_run c stmt params : wf c -> wf (run c stmt params).2.
Proof.
  intros Hwf. unfold run.
  destruct (apply (query stmt) params (stations c)) as [[result m]|] eqn:Happ;
    [|exact Hwf].
  destruct (live c =? 0)%nat; [exact Hwf|].
  destruct (is_read (query stmt) && is_ANY (level stmt)); [exact Hwf|].
  destruct (live c <? _)%nat; [exact Hwf|]. simpl.
  unfold apply in Happ.
  destruct (query stmt);
    repeat (match type of Happ with
            | match ?x with _ => _ end = _ => destruct x
            end; try discriminate);
    injection Happ as _ <-;
    try (destruct c; exact Hwf).
  - apply wf_insert; [exact Hwf|]. simpl. apply ascending_partition, Hwf.
  - apply wf_insert; [exact Hwf|]. simpl.
    apply ascending_upsert, ascending_partition, Hwf.
Qed.

Lemma wf_fresh : wf fresh.
Proof. intros id p. unfold fresh. simpl. rewrite lookup_empty. discriminate. Qed.




End OnCluster.


(** ** The scenarios of the specification, run on the cluster *)

Section Scenarios.
Import Cluster Sample.

Example scenario_max_of_two :
  StationMax service ask_max loaded = (StationMaxReply.mk 9 "", loaded).
Proof. vm_compute. reflexivity. Qed.

Example scenario_max_of_none :
  (StationMax service ask_max fresh).1
  = StationMaxReply.mk (-1) "No data found".
Proof. vm_compute. reflexivity. Qed.

Example scenario_name_unknown :
  (StationName ask_name fresh).1
  = inr (StationNameReply.mk "" "Station not found").
Proof. vm_compute. reflexivity. Qed.

Example scenario_name_seeded :
  (StationName ask_name seeded).1
  = inr (StationNameReply.mk "MADISON DANE CO RGNL AP" "").
Proof. vm_compute. reflexivity. Qed.

(** A station that has observations but was never seeded has rows with a
    null name: the reply is an empty name with an empty error. *)
Example scenario_name_unseeded_with_observations :
  (StationName ask_name loaded).1 = inr (StationNameReply.mk "" "").
Proof. vm_compute. reflexivity. Qed.

Example scenario_two_replicas :
  (StationMax service ask_max (with_live 2 loaded)).1
  = StationMaxReply.mk 9 "fallback_to_available".
Proof. vm_compute. reflexivity. Qed.

End Scenarios.

(** ** The theorems at concrete sessions *)

Section Witnesses.
Import Cluster Sample.

(** Two replicas up: the strong read is refused, the fallback read answers.
    No replica up: both reads are refused. *)
Lemma StationMax_fallback_witness :
  StationMax service ask_max (with_live 2 loaded)
    = (StationMaxReply.mk 9 "fallback_to_available", with_live 2 loaded)
  /\ StationMax service ask_max (with_live 0 loaded)
     = (StationMaxReply.mk (-1) "unavailable", with_live 0 loaded).
Proof.
  split.
  - apply (proj1 (StationMax_fallback ask_max
             (with_live 2 loaded) (with_live 2 loaded) (with_live 2 loaded)
             (Unavailable "Cannot achieve consistency level")
             (Rows [mkRow (Some 9%Z) None])
             eq_refl eq_refl eq_refl)
           (mkRow (Some 9%Z) None) [] 9%Z eq_refl eq_refl).
  - apply (proj2 (StationMax_fallback ask_max
             (with_live 0 loaded) (with_live 0 loaded) (with_live 0 loaded)
             (NoHostAvailable "Unable to complete the operation against any hosts")
             (Raise (NoHostAvailable "Unable to complete the operation against any hosts"))
             eq_refl eq_refl eq_refl)
           (NoHostAvailable "Unable to complete the operation against any hosts")
           eq_refl eq_refl).
Defined.

Lemma StationMax_other_error_verbatim_witness :
  StationMax service ask_max [Raise timeout; Rows [mkRow (Some 9%Z) None]]
    = (StationMaxReply.mk (-1)
         "Operation timed out - received only 2 responses.",
       [Rows [mkRow (Some 9%Z) None]])
  /\ calls (StationMax service ask_max
              (mkTraced [Raise timeout; Rows [mkRow (Some 9%Z) None]] [])).2
     = [(select_max_strong service, max_params ask_max)].
Proof.
  exact (StationMax_other_error_verbatim ask_max
           [Raise timeout; Rows [mkRow (Some 9%Z) None]]
           [Rows [mkRow (Some 9%Z) None]] timeout [] eq_refl eq_refl).
Defined.

(** A station without observations: the aggregate comes back null. A
    scripted empty result set: there is no row at all. *)
Lemma StationMax_no_data_witness :
  StationMax service ask_max fresh
    = (StationMaxReply.mk (-1) "No data found", fresh)
  /\ StationMax service ask_max [Rows []]
     = (StationMaxReply.mk (-1) "No data found", []).
Proof.
  split.
  - apply (StationMax_no_data ask_max fresh fresh [mkRow None None] []
             eq_refl).
    right. exists (mkRow None None). split; reflexivity.
  - apply (StationMax_no_data ask_max [Rows []] [] [] [] eq_refl).
    left. reflexivity.
Defined.

Lemma StationMax_fallback_no_data_witness :
  StationMax service ask_max (with_live 1 fresh)
    = (StationMaxReply.mk (-1) "No data found", with_live 1 fresh).
Proof.
  apply (StationMax_fallback_no_data ask_max
           (with_live 1 fresh) (with_live 1 fresh) (with_live 1 fresh)
           (Unavailable "Cannot achieve consistency level")
           [mkRow None None] eq_refl eq_refl eq_refl).
  right. exists (mkRow None None). split; reflexivity.
Defined.

Lemma StationMax_value_only_on_success_witness :
  StationMaxReply.error (StationMax service ask_max loaded).1 = ""
  \/ StationMaxReply.error (StationMax service ask_max loaded).1
     = "fallback_to_available".
Proof.
  destruct (proj1 (StationMax_value_only_on_success ask_max loaded))
    as [[Herr _]|[Herr _]].
  - vm_compute. discriminate.
  - left. exact Herr.
  - right. exact Herr.
Defined.

Lemma RecordTemps_error_witness :
  (RecordTemps service obs1 fresh).1 = RecordTempsReply.mk ""
  /\ (RecordTemps service obs1 (with_live 0 fresh)).1
     = RecordTempsReply.mk "unavailable"
  /\ (RecordTemps service obs1 [Raise timeout]).1
     = RecordTempsReply.mk "Operation timed out - received only 2 responses.".
Proof.
  split; [|split].
  - exact (f_equal fst
      (proj1 (RecordTemps_error obs1 fresh
                (RecordTemps service obs1 fresh).2 (Rows []) eq_refl)
         [] eq_refl)).
  - exact (f_equal fst
      (proj1 (proj2 (RecordTemps_error obs1 (with_live 0 fresh)
                (with_live 0 fresh)
                (Raise (NoHostAvailable
                   "Unable to complete the operation against any hosts"))
                eq_refl))
         _ eq_refl eq_refl)).
  - exact (f_equal fst
      (proj2 (proj2 (RecordTemps_error obs1 [Raise timeout] []
                (Raise timeout) eq_refl))
         timeout eq_refl eq_refl)).
Defined.



(** A seeded station, a station with observations and no name, and a
    station without any row. *)
Lemma StationName_found_or_not_witness :
  StationName ask_name seeded
    = (inr (StationNameReply.mk "MADISON DANE CO RGNL AP" ""), seeded)
  /\ StationName ask_name loaded
     = (inr (StationNameReply.mk "" ""), loaded)
  /\ StationName ask_name fresh
     = (inr (StationNameReply.mk "" "Station not found"), fresh).
Proof.
  split; [|split].
  - apply (proj2 (proj1 (StationName_found_or_not ask_name seeded seeded
                    [mkRow None (Some "MADISON DANE CO RGNL AP")] [] eq_refl)
                  (mkRow None (Some "MADISON DANE CO RGNL AP")) eq_refl)
           _ eq_refl).
  - apply (proj1 (proj1 (StationName_found_or_not ask_name loaded loaded
                    [mkRow None None; mkRow None None] [] eq_refl)
                  (mkRow None None) eq_refl)).
  - apply (proj1 (proj2 (StationName_found_or_not ask_name fresh fresh
             [] [] eq_refl))).
    reflexivity.
Defined.



End Witnesses.

(** * Further properties of the handlers *)

Section MoreReadPath.
Context {S : Type} `{Session S}.
Implicit Types (s : S) (log : list Call).

(** X1. When the strong read raises an unavailability error and the fallback read
    raises anything else, the reply is [tmax = -1] with the text of the
    fallback's exception, and both reads were executed, in that order. *)
Theorem StationMax_fallback_other_error (request : StationMaxRequest.t)
    s s1 s2 (e e2 : Exn) log :
  execute s (select_max_strong service) (max_params request) = (Raise e, s1) ->
  is_unavailable e = true ->
  execute s1 (select_max_available service) (max_params request)
    = (Raise e2, s2) ->
  is_unavailable e2 = false ->
  StationMax service request s = (StationMaxReply.mk (-1) (str e2), s2)
  /\ calls (StationMax service request (mkTraced s log)).2
     = log ++ [(select_max_strong service, max_params request);
               (select_max_available service, max_params request)].
Proof.
  intros Hstrong He Hweak He2. split.
  - unfold StationMax. rewrite Hstrong, He, Hweak, He2. reflexivity.
  - rewrite StationMax_calls, Hstrong. simpl. rewrite He. reflexivity.
Qed.

(** X2. Whatever the session answers, [StationMax] executes one or two
    statements, never more; each is the aggregate query bound to the
    requested station; the second, when there is one, is at level [ONE]. *)
Theorem StationMax_at_most_two_reads (request : StationMaxRequest.t) s log :
  exists made,
    calls (StationMax service request (mkTraced s log)).2 = log ++ made
    /\ (1 <= length made <= 2)%nat
    /\ Forall (fun call : Call =>
                 query call.1 = SelectMax
                 /\ call.2 = [VText (StationMaxRequest.station request)])
              made
    /\ (forall call, made !! 1%nat = Some call ->
          consistency_level call.1 = Some ONE).
Proof.
  rewrite StationMax_calls. eexists. split; [reflexivity|].
  destruct (execute s _ _).1 as [result|e]; [|destruct (is_unavailable e)];
    simpl; (split; [lia|]); (split; [repeat constructor|]);
    intros call [= <-] || intros call [=]; reflexivity.
Qed.

(** X3. [StationName] has no handler for exceptions: when the lookup raises, of
    whatever class, the exception leaves [StationName] as it is, no reply is
    built and nothing else is executed. *)
Theorem StationName_exception_leaves (request : StationNameRequest.t)
    s s1 (e : Exn) log :
  execute s select_name (name_params request) = (Raise e, s1) ->
  StationName request s = (inl e, s1)
  /\ calls (StationName request (mkTraced s log)).2
     = log ++ [(select_name, name_params request)].
Proof.
  intros Hlookup. unfold StationName.
  rewrite execute_traced, Hlookup. split; reflexivity.
Qed.

End MoreReadPath.

(** ** Reads and writes together, on the cluster *)

Section MoreOnCluster.
Import Cluster.
Implicit Types (c : Cluster.t) (rows : list (Date * station_record)).

Lemma StationMax_cluster c (request : StationMaxRequest.t) :
  StationMax service request c =
  (match live c,
         max_tmax (p_rows (partition (stations c)
                             (StationMaxRequest.station request))) with
   | 0, _ => StationMaxReply.mk (-1) "unavailable"
   | _, None => StationMaxReply.mk (-1) "No data found"
   | 1, Some m | 2, Some m => StationMaxReply.mk m "fallback_to_available"
   | _, Some m => StationMaxReply.mk m ""
   end, c).
Proof.
  destruct c as [n m]. unfold StationMax, execute, session, run. simpl.
  destruct n as [|[|[|n]]]; simpl; try reflexivity;
    destruct (max_tmax _); reflexivity.
Qed.

Lemma StationName_cluster c (request : StationNameRequest.t) :
  StationName request c =
  (if (live c =? 0)%nat
   then inl (NoHostAvailable
               "Unable to complete the operation against any hosts")
   else match one (name_rows (stations c
                                !! StationNameRequest.station request)) with
        | Some row => inr (StationNameReply.mk (pb_string (name row)) "")
        | None => inr (StationNameReply.mk "" "Station not found")
        end, c).
Proof.
  destruct c as [n m]. unfold StationName, execute, session, run. simpl.
  destruct n as [|n]; simpl; [reflexivity|].
  destruct (one _); reflexivity.
Qed.

Lemma find_In d r rows : find d rows = Some r -> In (d, r) rows.
Proof.
  induction rows as [|[d0 r0] rest IH]; simpl; [discriminate|].
  destruct (Z.eqb_spec d d0) as [->|_]; [intros [= ->]; auto|auto].
Qed.

Lemma ascending_In_lt d0 r0 d r rows :
  ascending ((d0, r0) :: rows) -> In (d, r) rows -> (d0 < d)%Z.
Proof.
  revert d0 r0. induction rows as [|[d1 r1] rest IH]; intros d0 r0;
    simpl; [tauto|].
  intros [Hlt Hrest] [[= -> ->]|Hin]; [exact Hlt|].
  specialize (IH d1 r1 Hrest Hin). lia.
Qed.

Lemma In_find d r rows :
  ascending rows -> In (d, r) rows -> find d rows = Some r.
Proof.
  induction rows as [|[d0 r0] rest IH]; simpl; [tauto|].
  intros Hasc [[= -> ->]|Hin]; [rewrite Z.eqb_refl; reflexivity|].
  pose proof (ascending_In_lt d0 r0 d r rest Hasc Hin).
  destruct (Z.eqb_spec d d0); [lia|]. apply IH; tauto.
Qed.

Lemma max_tmax_upper d r rows :
  In (d, r) rows -> exists m, max_tmax rows = Some m /\ (tmax r <= m)%Z.
Proof.
  induction rows as [|[d0 r0] rest IH]; simpl; [tauto|].
  intros [[= -> ->]|Hin].
  - destruct (max_tmax rest) as [m|]; eexists; split; try reflexivity; lia.
  - destruct (IH Hin) as (m & -> & Hle). eexists. split; [reflexivity|lia].
Qed.

Lemma max_tmax_attained m rows :
  max_tmax rows = Some m -> exists d r, In (d, r) rows /\ tmax r = m.
Proof.
  revert m. induction rows as [|[d0 r0] rest IH]; simpl; [discriminate|].
  intros m. destruct (max_tmax rest) as [m'|].
  - intros [= <-]. destruct (Z.max_spec (tmax r0) m') as [[_ ->]|[_ ->]].
    + destruct (IH m' eq_refl) as (d & r & Hin & Hr). eauto.
    + eauto.
  - intros [= <-]. eauto.
Qed.

Lemma ascending_count_one d rows : ascending rows -> (count d rows <= 1)%nat.
Proof.
  induction rows as [|[d0 r0] rest IH]; simpl; [lia|].
  intros Hasc. destruct (Z.eqb_spec d d0) as [->|_].
  - rewrite (ascending_count_le d0 d0 r0 rest Hasc); lia.
  - simpl. apply IH, Hasc.
Qed.

Lemma upsert_cons d r rows : exists row rest, upsert d r rows = row :: rest.
Proof.
  destruct rows as [|[d0 r0] rest]; simpl; [eauto|].
  destruct (d <? d0)%Z; [eauto|]. destruct (d =? d0)%Z; eauto.
Qed.

Lemma wf_RecordTemps c (request : RecordTempsRequest.t) :
  wf c -> wf (RecordTemps service request c).2.
Proof.
  intros Hwf. rewrite RecordTemps_cluster.
  destruct (live c =? 0)%nat; [exact Hwf|]. simpl.
  apply wf_insert; [exact Hwf|]. unfold written. simpl.
  apply ascending_upsert, ascending_partition, Hwf.
Qed.

End MoreOnCluster.

Section ReadsAndWrites.
Import Cluster.
Implicit Types (c : Cluster.t).


(** X5. With all replicas up and a well-formed table, the [tmax] replied for a
    station of a non-empty id is the greatest [tmax] among its observations:
    no stored observation is above it, one of them has it, and the error is
    empty as soon as the station has an observation. *)
Theorem StationMax_is_maximum c (request : StationMaxRequest.t) :
  StationMaxRequest.station request <> "" ->
  wf c -> (3 <= live c)%nat ->
  let st := StationMaxRequest.station request in
  let reply := (StationMax service request c).1 in
  (forall d r, observation c st d = Some r ->
     StationMaxReply.error reply = ""
     /\ (tmax r <= StationMaxReply.tmax reply)%Z)
  /\ (StationMaxReply.error reply = "" ->
      exists d r, observation c st d = Some r
                  /\ tmax r = StationMaxReply.tmax reply).
Proof.
  intros _ Hwf Hlive st reply. subst reply. rewrite StationMax_cluster.
  unfold observation. fold st.
  pose proof (ascending_partition c st Hwf) as Hasc.
  destruct (live c) as [|[|[|n]]]; try lia. simpl. split.
  - intros d r Hfind. apply find_In in Hfind.
    destruct (max_tmax_upper _ _ _ Hfind) as (m & -> & Hle). auto.
  - destruct (max_tmax _) as [m|] eqn:Hmax; [|discriminate]. intros _.
    destruct (max_tmax_attained _ _ Hmax) as (d & r & Hin & Hr).
    exists d, r. split; [apply In_find; assumption|exact Hr].
Qed.


(** X7. Recording temperatures never changes a name: a station whose lookup
    gave a name (with an empty error) gives the same reply after any
    write. *)
Theorem RecordTemps_keeps_name c (w : RecordTempsRequest.t)
    (q : StationNameRequest.t) (reply : StationNameReply.t) :
  (StationName q c).1 = inr reply ->
  StationNameReply.error reply = "" ->
  (StationName q (RecordTemps service w c).2).1 = inr reply.
Proof.
  rewrite !StationName_cluster, RecordTemps_cluster.
  destruct (live c) as [|n] eqn:Hlive; simpl; [discriminate|].
  rewrite lookup_insert.
  case_decide as Hst; [|tauto]. rewrite <- Hst.
  unfold written, partition. simpl.
  destruct (upsert_cons (RecordTempsRequest.date w)
              (mkRecord (RecordTempsRequest.tmin w)
                        (RecordTempsRequest.tmax w))
              (p_rows (default empty_partition
                         (stations c !! RecordTempsRequest.station w))))
    as (row & rest & ->).
  destruct (stations c !! RecordTempsRequest.station w) as [[nm rows]|];
    simpl.
  - destruct rows as [|row0 rows]; simpl.
    + destruct nm as [n0|]; simpl; [tauto|].
      intros [= <-]. discriminate.
    + tauto.
  - intros [= <-]. discriminate.
Qed.

(** X8. A write for a station that has no row creates its partition without a
    name: the lookup that replied ["Station not found"] replies, after the
    write, an empty name with an empty error. *)
Theorem RecordTemps_unknown_station_gets_empty_name c
    (w : RecordTempsRequest.t) :
  let q := StationNameRequest.mk (RecordTempsRequest.station w) in
  (StationName q c).1 = inr (StationNameReply.mk "" "Station not found") ->
  (StationName q (RecordTemps service w c).2).1
  = inr (StationNameReply.mk "" "").
Proof.
  intros q. subst q. rewrite !StationName_cluster, RecordTemps_cluster.
  destruct (live c) as [|n] eqn:Hlive; simpl; [discriminate|].
  rewrite lookup_insert_eq.
  unfold written, partition. simpl.
  destruct (upsert_cons (RecordTempsRequest.date w)
              (mkRecord (RecordTempsRequest.tmin w)
                        (RecordTempsRequest.tmax w))
              (p_rows (default empty_partition
                         (stations c !! RecordTempsRequest.station w))))
    as (row & rest & ->).
  destruct (stations c !! RecordTempsRequest.station w) as [[nm rows]|];
    simpl; [|reflexivity].
  destruct rows as [|row0 rows]; simpl.
  - destruct nm as [n0|]; simpl; [discriminate|reflexivity].
  - discriminate.
Qed.

(** X9. A write touches its own key only: the observation under any other
    [(station, date)] and the name of every station are as before. *)
Theorem RecordTemps_other_keys_untouched c (w : RecordTempsRequest.t)
    (st : string) (d : Date) :
  (st, d) <> (RecordTempsRequest.station w, RecordTempsRequest.date w) ->
  observation (RecordTemps service w c).2 st d = observation c st d
  /\ forall st', p_name (partition (stations (RecordTemps service w c).2) st')
                 = p_name (partition (stations c) st').
Proof.
  intros Hkey. rewrite RecordTemps_cluster.
  destruct (live c =? 0)%nat; [auto|]. simpl. split.
  - unfold observation, partition. simpl. rewrite lookup_insert.
    case_decide as Hst; [|reflexivity]. subst st. unfold written. simpl.
    apply find_upsert_other. congruence.
  - intros st'. unfold partition. simpl. rewrite lookup_insert.
    case_decide as Hst; [|reflexivity]. subst st'. reflexivity.
Qed.

Lemma wf_run_all c statements : wf c -> wf (run_all c statements).
Proof.
  revert c. induction statements as [|call rest IH]; intros c Hwf;
    [exact Hwf|].
  apply IH, wf_run, Hwf.
Qed.

(** X11. Whatever statements the cluster takes, in whatever order, a table that
    has at most one row under each key keeps at most one row under each
    key. *)
Theorem one_row_per_key c (statements : list Call) (id : string) (d : Date) :
  wf c -> (rows_at (run_all c statements) id d <= 1)%nat.
Proof.
  intros Hwf. unfold rows_at.
  apply ascending_count_one, ascending_partition, wf_run_all, Hwf.
Qed.

End ReadsAndWrites.

(** * The station list *)

(** ** Slicing and trimming *)

Section Strings.
Implicit Types (s a b : string) (n m k : nat).

Lemma substring_length n m s :
  String.length (String.substring n m s) = Nat.min m (String.length s - n).
Proof.
  revert n m. induction s as [|c s IH]; intros [|n] [|m]; simpl;
    try reflexivity; try lia.
  - rewrite IH. simpl. f_equal. f_equal. lia.
  - rewrite IH. reflexivity.
  - rewrite IH. reflexivity.
Qed.

Lemma substring_skip a b k m :
  String.substring (String.length a + k) m (a +:+ b) = String.substring k m b.
Proof. induction a as [|c a IH]; simpl; [reflexivity|exact IH]. Qed.

Lemma substring_field a b m :
  (String.length a <= m)%nat ->
  ((String.length a < m)%nat -> b = "") ->
  String.substring 0 m (a +:+ b) = a.
Proof.
  revert m. induction a as [|c a IH]; intros m Hle Hend; simpl.
  - destruct m as [|m]; [destruct b; reflexivity|].
    rewrite Hend by (simpl; lia). reflexivity.
  - destruct m as [|m]; simpl in Hle; [lia|].
    rewrite IH; [reflexivity|lia|]. intros Hlt. apply Hend. simpl. lia.
Qed.

Lemma ltrim_blank s : Stations.blank s = true -> Stations.ltrim s = "".
Proof.
  induction s as [|c s IH]; simpl; [reflexivity|].
  destruct (Strings.Ascii.eqb c Stations.space); simpl; [exact IH|discriminate].
Qed.

Lemma ltrim_blank_app a s :
  Stations.blank a = true -> Stations.ltrim (a +:+ s) = Stations.ltrim s.
Proof.
  induction a as [|c a IH]; simpl; [reflexivity|].
  destruct (Strings.Ascii.eqb c Stations.space); simpl; [exact IH|discriminate].
Qed.

Lemma ltrim_id s : Stations.starts_with_space s = false -> Stations.ltrim s = s.
Proof. destruct s as [|c s]; simpl; [reflexivity|]. intros ->. reflexivity. Qed.

Lemma rtrim_blank s : Stations.blank s = true -> Stations.rtrim s = "".
Proof.
  induction s as [|c s IH]; simpl; [reflexivity|].
  destruct (Strings.Ascii.eqb c Stations.space) eqn:Hc; simpl; [|discriminate].
  intros Hs. rewrite (IH Hs). reflexivity.
Qed.

Lemma rtrim_app_blank s b :
  Stations.blank b = true -> Stations.rtrim (s +:+ b) = Stations.rtrim s.
Proof.
  intros Hb. induction s as [|c s IH]; simpl; [apply rtrim_blank, Hb|].
  rewrite IH. reflexivity.
Qed.

Lemma rtrim_id s : Stations.ends_with_space s = false -> Stations.rtrim s = s.
Proof.
  induction s as [|c s IH]; [reflexivity|].
  destruct s as [|c' s]; simpl in *.
  - intros ->. reflexivity.
  - intros Hs. rewrite (IH Hs). reflexivity.
Qed.

Lemma TRIM_field a s b :
  Stations.blank a = true -> Stations.blank b = true ->
  Stations.starts_with_space s = false ->
  Stations.ends_with_space s = false ->
  Stations.TRIM (a +:+ s +:+ b) = s.
Proof.
  intros Ha Hb Hstart Hend. unfold Stations.TRIM.
  rewrite ltrim_blank_app by exact Ha.
  destruct s as [|c s]; [simpl; rewrite ltrim_blank by exact Hb; reflexivity|].
  rewrite ltrim_id by exact Hstart.
  rewrite rtrim_app_blank by exact Hb. apply rtrim_id, Hend.
Qed.

Lemma ltrim_starts s : Stations.starts_with_space (Stations.ltrim s) = false.
Proof.
  induction s as [|c s IH]; simpl; [reflexivity|].
  destruct (Strings.Ascii.eqb c Stations.space) eqn:Hc; [exact IH|].
  simpl. exact Hc.
Qed.

Lemma rtrim_starts s :
  Stations.starts_with_space s = false ->
  Stations.starts_with_space (Stations.rtrim s) = false.
Proof.
  destruct s as [|c s]; simpl; [reflexivity|]. intros Hc.
  destruct (Stations.rtrim s); simpl; [rewrite Hc; simpl|]; exact Hc.
Qed.

Lemma rtrim_ends s : Stations.ends_with_space (Stations.rtrim s) = false.
Proof.
  induction s as [|c s IH]; simpl; [reflexivity|].
  destruct (Stations.rtrim s) as [|c' kept] eqn:Hkept.
  - destruct (Strings.Ascii.eqb c Stations.space) eqn:Hc; simpl;
      [reflexivity|exact Hc].
  - simpl. simpl in IH. exact IH.
Qed.

Lemma ltrim_length s : (String.length (Stations.ltrim s) <= String.length s)%nat.
Proof.
  induction s as [|c s IH]; simpl; [lia|].
  destruct (Strings.Ascii.eqb c Stations.space); simpl; lia.
Qed.

Lemma rtrim_length s : (String.length (Stations.rtrim s) <= String.length s)%nat.
Proof.
  induction s as [|c s IH]; simpl; [lia|].
  destruct (Stations.rtrim s); [destruct (Strings.Ascii.eqb c Stations.space)|];
    simpl in *; lia.
Qed.

End Strings.

(** ** Reading the lines *)

Section Reading.

(** X12. A line laid out in the columns the SELECT reads (an id in columns 1-11,
    a state in 39-40, a name somewhere in 42-71 among spaces) gives back
    exactly that id, that state and that name. *)
Theorem select_columns (i gap1 st gap2 lead nm trail rest : string) :
  String.length i = 11%nat -> String.length gap1 = 27%nat ->
  String.length st = 2%nat -> String.length gap2 = 1%nat ->
  (String.length (lead +:+ nm +:+ trail) <= 30)%nat ->
  ((String.length (lead +:+ nm +:+ trail) < 30)%nat -> rest = "") ->
  Stations.blank lead = true -> Stations.blank trail = true ->
  Stations.starts_with_space nm = false ->
  Stations.ends_with_space nm = false ->
  Stations.select
    (i +:+ gap1 +:+ st +:+ gap2 +:+ (lead +:+ nm +:+ trail) +:+ rest)
  = Stations.mkRow i st nm.
Proof.
  intros Hi Hgap1 Hst Hgap2 Hfield Hrest Hlead Htrail Hstart Hend.
  unfold Stations.select, Stations.SUBSTRING. simpl Nat.sub. f_equal.
  - apply substring_field; [lia|lia].
  - replace 38%nat with (String.length i + (String.length gap1 + 0))%nat
      by lia.
    rewrite !substring_skip. apply substring_field; [lia|lia].
  - replace 41%nat
      with (String.length i + (String.length gap1
              + (String.length st + (String.length gap2 + 0))))%nat by lia.
    rewrite !substring_skip, substring_field by assumption.
    apply TRIM_field; assumption.
Qed.

(** X13. Every station kept for insertion comes from a line of at least 40
    characters whose columns 39-40 read [WI]; its id has 11 characters, its
    name at most 30, without a space at either end. Shorter lines, the empty
    line among them, are passed over without an error. *)
Theorem wi_stations_rows (lines : list string) (r : Stations.row) :
  r ∈ Stations.wi_stations lines ->
  Stations.state r = "WI"
  /\ String.length (Stations.id r) = 11%nat
  /\ (String.length (Stations.name r) <= 30)%nat
  /\ Stations.starts_with_space (Stations.name r) = false
  /\ Stations.ends_with_space (Stations.name r) = false
  /\ exists value, value ∈ lines /\ (40 <= String.length value)%nat
                   /\ r = Stations.select value.
Proof.
  unfold Stations.wi_stations, Stations.stations.
  rewrite list_elem_of_filter, list_elem_of_In, in_map_iff.
  intros [Hstate (value & <- & Hin)].
  assert (40 <= String.length value)%nat as Hlen.
  { pose proof (f_equal String.length Hstate) as Hl.
    unfold Stations.select, Stations.SUBSTRING in Hl. simpl in Hl.
    rewrite substring_length in Hl. lia. }
  split; [exact Hstate|].
  unfold Stations.select, Stations.SUBSTRING, Stations.TRIM; simpl.
  split; [rewrite substring_length; lia|].
  split.
  { etransitivity; [apply rtrim_length|].
    etransitivity; [apply ltrim_length|].
    rewrite substring_length. lia. }
  split; [apply rtrim_starts, ltrim_starts|].
  split; [apply rtrim_ends|].
  exists value. rewrite <- list_elem_of_In in Hin. auto.
Qed.

End Reading.

(** ** Inserting the stations *)

Section Inserting.
Import Cluster.




End Inserting.

Section Loading.
Import Cluster.


(** X14. The loop executes one insert per station, in the order of the rows, and
    stops at the first that raises: what it has executed is the inserts of
    the first [k] rows, of all the rows when it ends without an exception;
    when it ends with an exception, that is what the [k]-th insert raised
    after the [k - 1] before it had returned. *)
Theorem insert_stations_calls {S} `{Session S}
    (rows : list Stations.row) (s : S) (log : list Call) :
  let done := Stations.insert_stations rows (mkTraced s log) in
  exists k, (k <= length rows)%nat
    /\ calls done.2
       = log ++ map (fun r => (Stations.insert_station,
                                Stations.station_params r)) (take k rows)
    /\ (done.1 = None -> k = length rows)
    /\ (forall e, done.1 = Some e ->
          exists r s', (1 <= k)%nat /\ rows !! (k - 1)%nat = Some r
            /\ Stations.insert_stations (take (k - 1) rows) s = (None, s')
            /\ (execute s' Stations.insert_station
                  (Stations.station_params r)).1 = Raise e).
Proof.
  revert s log. induction rows as [|r rest IH]; intros s log; simpl.
  - exists 0%nat. rewrite app_nil_r. repeat split; auto. discriminate.
  - rewrite execute_traced.
    destruct (execute s Stations.insert_station (Stations.station_params r))
      as [[result|e] s1] eqn:Hexec; simpl.
    + destruct (IH s1 (log ++ [(Stations.insert_station,
                                 Stations.station_params r)]))
        as (k & Hk & Hcalls & Hall & Hraise).
      exists (Datatypes.S k). split; [lia|]. split.
      { rewrite Hcalls, <- app_assoc. reflexivity. }
      split; [intros Hnone; rewrite (Hall Hnone); reflexivity|].
      intros e He. destruct (Hraise e He) as (r' & s' & Hk1 & Hr' & Hpre & He').
      exists r', s'. split; [lia|].
      destruct k as [|k]; [lia|]. simpl in *.
      rewrite Nat.sub_0_r in *. rewrite Hexec.
      repeat split; assumption.
    + exists 1%nat. split; [lia|]. split; [reflexivity|].
      split; [discriminate|].
      intros e' [= <-]. exists r, s. simpl. rewrite Hexec. auto.
Qed.


End Loading.

(** * The further properties at concrete sessions *)

Section MoreWitnesses.
Import Cluster Sample SampleLines.

Lemma wf_loaded : wf loaded.
Proof. unfold loaded. apply wf_RecordTemps, wf_RecordTemps, wf_fresh. Qed.

Lemma StationMax_fallback_other_error_witness :
  StationMax service ask_max
    [Raise (Unavailable "Cannot achieve consistency level"); Raise timeout]
  = (StationMaxReply.mk (-1)
       "Operation timed out - received only 2 responses.", [])
  /\ calls (StationMax service ask_max
              (mkTraced [Raise (Unavailable "Cannot achieve consistency level");
                         Raise timeout] [])).2
     = both_reads.
Proof.
  exact (StationMax_fallback_other_error ask_max
           [Raise (Unavailable "Cannot achieve consistency level");
            Raise timeout]
           [Raise timeout] []
           (Unavailable "Cannot achieve consistency level") timeout []
           eq_refl eq_refl eq_refl eq_refl).
Defined.

(** No replica up: the lookup's exception is what comes out. *)
Lemma StationName_exception_leaves_witness :
  (StationName ask_name (with_live 0 seeded)).1
  = inl (NoHostAvailable "Unable to complete the operation against any hosts").
Proof.
  exact (f_equal fst
    (proj1 (StationName_exception_leaves ask_name
              (with_live 0 seeded) (with_live 0 seeded)
              (NoHostAvailable
                 "Unable to complete the operation against any hosts")
              [] eq_refl))).
Defined.


Lemma StationMax_is_maximum_witness :
  StationMaxReply.error (StationMax service ask_max loaded).1 = ""
  /\ (2 <= StationMaxReply.tmax (StationMax service ask_max loaded).1)%Z.
Proof.
  apply (proj1 (StationMax_is_maximum loaded ask_max ltac:(discriminate)
                  wf_loaded ltac:(vm_compute; lia))
           jan1 (mkRecord (-5) 2)).
  reflexivity.
Defined.


Lemma RecordTemps_keeps_name_witness :
  (StationName ask_name (RecordTemps service obs1 seeded).2).1
  = inr (StationNameReply.mk "MADISON DANE CO RGNL AP" "").
Proof.
  apply (RecordTemps_keeps_name seeded obs1 ask_name
           (StationNameReply.mk "MADISON DANE CO RGNL AP" "")
           eq_refl eq_refl).
Defined.

Lemma RecordTemps_unknown_station_gets_empty_name_witness :
  (StationName ask_name (RecordTemps service obs1 fresh).2).1
  = inr (StationNameReply.mk "" "").
Proof.
  apply (RecordTemps_unknown_station_gets_empty_name fresh obs1 eq_refl).
Defined.

Lemma RecordTemps_other_keys_untouched_witness :
  observation (RecordTemps service obs2 (RecordTemps service obs1 fresh).2).2
    madison jan1
  = Some (mkRecord (-5) 2).
Proof.
  rewrite (proj1 (RecordTemps_other_keys_untouched
                    (RecordTemps service obs1 fresh).2 obs2 madison jan1
                    ltac:(discriminate))).
  reflexivity.
Defined.

Lemma one_row_per_key_witness :
  (rows_at
     (run_all fresh
        [(insert_temp service, temps_params obs1);
         (insert_temp service, temps_params obs1);
         (insert_temp service, temps_params obs2)])
     madison jan1 <= 1)%nat.
Proof. apply one_row_per_key, wf_fresh. Defined.

Lemma select_columns_witness : Stations.select madison_line = madison_row.
Proof.
  apply (select_columns "USW00014837" "  43.1406  -89.3453  264.0 " "WI" " "
           "" "MADISON DANE CO RGNL AP" "       " " GSN     72641");
    try reflexivity; vm_compute; intros; lia.
Defined.

Lemma wi_stations_rows_witness :
  Stations.wi_stations lines = [madison_row]
  /\ String.length (Stations.id madison_row) = 11%nat.
Proof.
  split; [vm_compute; reflexivity|].
  apply (wi_stations_rows lines madison_row).
  vm_compute. left.
Defined.


End MoreWitnesses.
